(** * lc0 CUDA backend: the layer classes of [src/neural/cuda/layers.h]

    A shallow embedding of the layer hierarchy declared in the header
    (namespace [lczero::cudnn_backend]).  Every class becomes a record inside
    a module of the same name and every member keeps its name.  The methods
    whose bodies the header carries ([GetC], [GetH], [GetW] and
    [GetOutputSize] of [BaseLayer]) are embedded with the arithmetic of
    their C++ types.  The constructors, [LoadWeights*] and [Eval] are only
    declared in the header and are not given a definition here. *)

From Stdlib Require Import ZArith List Lia Permutation.

#[local] Set Warnings "-register-all".
Set Implicit Arguments.
Import ListNotations.
Local Open Scope Z_scope.

(** ** Machine integers

    [int] is a 32-bit signed integer; [size_t] is the 64-bit unsigned integer
    of the LP64 hosts the CUDA toolkit runs on.  Unsigned arithmetic wraps
    around; converting an [int] to [size_t] reduces it modulo [2^64]. *)

Definition INT_MIN : Z := - 2 ^ 31.
Definition INT_MAX : Z := 2 ^ 31 - 1.
Definition SIZE_MOD : Z := 2 ^ 64.

(** The values an [int] can hold. *)
Definition is_intb (x : Z) : bool := (INT_MIN <=? x) && (x <=? INT_MAX).

(** Integral conversion to [size_t]. *)
Definition to_size_t (x : Z) : Z := x mod SIZE_MOD.

(** [a * b] on two [size_t] operands. *)
Definition size_mul (a b : Z) : Z := (a * b) mod SIZE_MOD.

(** ** The template parameter [DataType]

    Every class of the header is a template over the element type
    [DataType], of which the header uses the size only.  [float] is the
    32-bit floating-point type of C++ and [half] the 16-bit one of CUDA, the
    two precisions the backend is built for. *)

Record DataType : Type := BuildDataType
  { sizeof : Z }.

Definition float : DataType := BuildDataType 4.

Definition half : DataType := BuildDataType 2.

(** ** [class BaseLayer]

    A pointer is [None] when it is [nullptr] (or nothing has been stored
    behind it yet) and otherwise carries the buffer it points to. *)

Module BaseLayer.

Inductive t (DT : DataType) (elem : Type) : Type := Build
  { cache_ : option (list elem);
    input_ : option (t DT elem);
    C : Z;   (* Output tensor dimensions. *)
    H : Z;
    W : Z;
    nhwc_ : bool  (* tensor layout *) }.

Arguments Build {DT elem}.
Arguments cache_ {DT elem}.
Arguments input_ {DT elem}.
Arguments C {DT elem}.
Arguments H {DT elem}.
Arguments W {DT elem}.
Arguments nhwc_ {DT elem}.

Definition GetC {DT elem} (l : t DT elem) : Z := C l.
Definition GetH {DT elem} (l : t DT elem) : Z := H l.
Definition GetW {DT elem} (l : t DT elem) : Z := W l.

(** [size_t GetOutputSize(int N) const
      { return sizeof(DataType) * N * C * H * W; }]

    The product associates to the left and its first operand is a [size_t],
    so every [int] operand is converted to [size_t] and every multiplication
    is a [size_t] multiplication. *)
Definition GetOutputSize {DT elem} (l : t DT elem) (N : Z) : Z :=
  size_mul
    (size_mul
       (size_mul
          (size_mul (sizeof DT) (to_size_t N))
          (to_size_t (C l)))
       (to_size_t (H l)))
    (to_size_t (W l)).

End BaseLayer.

(** ** The derived layer classes

    One module per class, with the members in the header's order.  The cuDNN
    descriptor handles of [ConvLayer] and [SoftMaxLayer] are opaque vendor
    objects and are left out.  Members the header declares [const] are
    marked; C++ lets no method assign them. *)

Module ConvLayer.

Record t (DT : DataType) (elem : Type) : Type := Build
  { base : BaseLayer.t DT elem;
    c_input_ : Z;        (* const *)
    filter_size_ : Z;    (* const *)
    use_relu_ : bool;    (* const *)
    use_bias_ : bool;    (* const *)
    biases : option (list elem);
    weights : option (list elem) }.

End ConvLayer.

Module SoftMaxLayer.

Record t (DT : DataType) (elem : Type) : Type := Build
  { base : BaseLayer.t DT elem }.

End SoftMaxLayer.

Module FCLayer.

Record t (DT : DataType) (elem : Type) : Type := Build
  { base : BaseLayer.t DT elem;
    use_bias_ : bool;     (* const *)
    use_relu_ : bool;     (* const *)
    use_tanh_ : bool;     (* const *)
    use_sigmoid_ : bool;  (* const *)
    weights_ : option (list elem);
    biases_ : option (list elem) }.

End FCLayer.

Module PolicyMapLayer.

Record t (DT : DataType) (elem : Type) : Type := Build
  { base : BaseLayer.t DT elem;
    used_size_ : Z;  (* Size of the input without padding (typically 73x64).
                        This is over-written to contain size with padding
                        (typically 80x64) after CHW->HWC conversion for
                        fp16. *)
    weights_ : option (list Z) }.

End PolicyMapLayer.

Module SELayer.

Record t (DT : DataType) (elem : Type) : Type := Build
  { base : BaseLayer.t DT elem;
    w1_ : option (list elem);
    w1_t_ : option (list elem);  (* transposed copy used by fused SE kernel *)
    b1_ : option (list elem);
    w2_ : option (list elem);
    w2_t_ : option (list elem);
    b2_ : option (list elem);
    bPrev_ : option (list elem);
    numFc1Out_ : Z;
    addPrevLayerBias_ : bool }.

End SELayer.

(** Multi-pass Winograd Conv fused with (optional) SE *)
Module FusedWinogradConvSELayer.

Record t (DT : DataType) (elem : Type) : Type := Build
  { base : BaseLayer.t DT elem;
    c_input_ : Z;         (* const *)
    use_relu_ : bool;     (* const *)
    use_bias_ : bool;     (* const *)
    skip_add_ : bool;     (* const *)
    has_se_ : bool;       (* const *)
    se_k_ : Z;            (* const *)
    use_gemm_ex_ : bool;  (* const *)
    biases_ : option (list elem);
    transformed_weights_ : option (list elem);  (* After winograd transform. *)
    (* Weights and Biases for (optional) SE. *)
    w1_ : option (list elem);
    w2_ : option (list elem);
    b1_ : option (list elem);
    b2_ : option (list elem) }.

End FusedWinogradConvSELayer.

Module Conv1Layer.

Record t (DT : DataType) (elem : Type) : Type := Build
  { base : BaseLayer.t DT elem;
    c_input_ : Z;         (* const *)
    use_relu_ : bool;     (* const *)
    use_bias_ : bool;     (* const *)
    use_gemm_ex_ : bool;  (* const *)
    biases_ : option (list elem);
    weights_ : option (list elem) }.

End Conv1Layer.

Module ResidualBlock.

Record t (DT : DataType) (elem : Type) : Type := Build
  { base : BaseLayer.t DT elem;
    has_se_ : bool;       (* const *)
    se_k_ : Z;            (* const *)
    use_gemm_ex_ : bool;  (* const *)
    c_input_ : Z;         (* const *)
    first_block_ : bool;  (* const *)
    last_block_ : bool;   (* const *)
    biases0_ : option (list elem);
    biases1_ : option (list elem);
    transformed_weights0_ : option (list elem);  (* After winograd transform. *)
    transformed_weights1_ : option (list elem);  (* After winograd transform. *)
    (* Weights and Biases for (optional) SE. *)
    w1_ : option (list elem);
    w2_ : option (list elem);
    b1_ : option (list elem);
    b2_ : option (list elem) }.

End ResidualBlock.

(** ** A layer of any class

    The classes behind a [BaseLayer*], as one tagged type. *)

Inductive Layer (DT : DataType) (elem : Type) : Type :=
| Conv (l : ConvLayer.t DT elem)
| SoftMax (l : SoftMaxLayer.t DT elem)
| FC (l : FCLayer.t DT elem)
| PolicyMap (l : PolicyMapLayer.t DT elem)
| SE (l : SELayer.t DT elem)
| FusedConv (l : FusedWinogradConvSELayer.t DT elem)
| Conv1 (l : Conv1Layer.t DT elem)
| Residual (l : ResidualBlock.t DT elem).

(** The [BaseLayer] subobject. *)
Definition base_of {DT elem} (l : Layer DT elem) : BaseLayer.t DT elem :=
  match l with
  | Conv c => ConvLayer.base c
  | SoftMax s => SoftMaxLayer.base s
  | FC f => FCLayer.base f
  | PolicyMap p => PolicyMapLayer.base p
  | SE s => SELayer.base s
  | FusedConv f => FusedWinogradConvSELayer.base f
  | Conv1 c => Conv1Layer.base c
  | Residual r => ResidualBlock.base r
  end.

Definition GetC {DT elem} (l : Layer DT elem) : Z := BaseLayer.GetC (base_of l).
Definition GetH {DT elem} (l : Layer DT elem) : Z := BaseLayer.GetH (base_of l).
Definition GetW {DT elem} (l : Layer DT elem) : Z := BaseLayer.GetW (base_of l).

Definition GetOutputSize {DT elem} (l : Layer DT elem) (N : Z) : Z :=
  BaseLayer.GetOutputSize (base_of l) N.

(** ** Sample layers

    Concrete layers used to run the definitions. *)

(** A convolution tower's layer: 256 channels on the 8 x 8 board. *)
Definition tower_base (nhwc : bool) : BaseLayer.t float unit :=
  BaseLayer.Build None None 256 8 8 nhwc.

Definition tower_conv1 : Layer float unit :=
  Conv1 (Conv1Layer.Build (tower_base false) 256 true true false None None).

(** A layer whose four factors are all [2^16]: each is a valid [int], and
    their product with [sizeof(float)] is [2^66]. *)
Definition wide_layer : Layer float unit :=
  SoftMax (SoftMaxLayer.Build (BaseLayer.Build None None 65536 65536 65536 false)).

Definition tower_fused_nhwc : Layer float unit :=
  FusedConv
    (FusedWinogradConvSELayer.Build (tower_base true) 256 true true false
       false 0 true None None None None None None).

(** A layer of [2^47] elements per sample: two batches of [2^14] samples
    take [2^63] bytes each. *)
Definition huge_layer : Layer float unit :=
  SoftMax (SoftMaxLayer.Build (BaseLayer.Build None None 65536 65536 32768 false)).

(** The tower's layer in half precision. *)
Definition tower_half : Layer half unit :=
  Conv1 (Conv1Layer.Build (BaseLayer.Build None None 256 8 8 true) 256 true
           true false None None).

(** A layer with no rows. *)
Definition empty_layer : Layer float unit :=
  SoftMax (SoftMaxLayer.Build (BaseLayer.Build None None 256 0 8 false)).

(** The padded policy planes, 80 x 8 x 8, and the same planes with the
    channels last, 8 x 8 x 80. *)
Definition policy_chw : Layer half unit :=
  SoftMax (SoftMaxLayer.Build (BaseLayer.Build None None 80 8 8 false)).

Definition policy_hwc : Layer half unit :=
  SoftMax (SoftMaxLayer.Build (BaseLayer.Build None None 8 8 80 true)).

(** * Properties *)

Unset Implicit Arguments.

(** ** Arithmetic of [size_t] *)

Lemma size_mul_to_size_t (a b : Z) :
  size_mul a (to_size_t b) = (a * b) mod SIZE_MOD.
Proof.
  unfold size_mul, to_size_t.
  apply Z.mul_mod_idemp_r. discriminate.
Qed.

Lemma size_mul_wrapped (a b : Z) :
  size_mul (a mod SIZE_MOD) (to_size_t b) = (a * b) mod SIZE_MOD.
Proof.
  rewrite size_mul_to_size_t.
  apply Z.mul_mod_idemp_l. discriminate.
Qed.

(** ** [GetOutputSize] *)

Lemma BaseLayer_GetOutputSize_mod {DT elem} (b : BaseLayer.t DT elem) (N : Z) :
  BaseLayer.GetOutputSize b N
  = (sizeof DT * N * BaseLayer.C b * BaseLayer.H b * BaseLayer.W b)
      mod SIZE_MOD.
Proof.
  unfold BaseLayer.GetOutputSize.
  rewrite (size_mul_to_size_t (sizeof DT) N).
  rewrite (size_mul_wrapped (sizeof DT * N) (BaseLayer.C b)).
  rewrite (size_mul_wrapped (sizeof DT * N * BaseLayer.C b) (BaseLayer.H b)).
  apply size_mul_wrapped.
Qed.

Lemma GetOutputSize_mod {DT elem} (l : Layer DT elem) (N : Z) :
  GetOutputSize l N
  = (N * GetC l * GetH l * GetW l * sizeof DT) mod SIZE_MOD.
Proof.
  unfold GetOutputSize, GetC, GetH, GetW,
    BaseLayer.GetC, BaseLayer.GetH, BaseLayer.GetW.
  rewrite BaseLayer_GetOutputSize_mod.
  f_equal. ring.
Qed.

Lemma GetOutputSize_range {DT elem} (l : Layer DT elem) (N : Z) :
  0 <= GetOutputSize l N < SIZE_MOD.
Proof.
  rewrite GetOutputSize_mod. apply Z.mod_pos_bound. reflexivity.
Qed.

Lemma GetOutputSize_shape {DT elem} (l l' : Layer DT elem) (N : Z) :
  (GetC l', GetH l', GetW l') = (GetC l, GetH l, GetW l) ->
  GetOutputSize l' N = GetOutputSize l N.
Proof.
  intros E. injection E as EC EH EW.
  rewrite !GetOutputSize_mod. now rewrite EC, EH, EW.
Qed.

Lemma GetOutputSize_add_mod {DT elem} (l : Layer DT elem) (N1 N2 : Z) :
  GetOutputSize l (N1 + N2)
  = (GetOutputSize l N1 + GetOutputSize l N2) mod SIZE_MOD.
Proof.
  rewrite !GetOutputSize_mod.
  rewrite <- Z.add_mod by discriminate.
  f_equal. ring.
Qed.

(** C1 (amended).  For every layer of every class and every batch size [N],
    [GetOutputSize(N)] is [N * C * H * W * sizeof(DataType)] reduced modulo
    [2^64], the product being taken in [size_t]; it is exactly that product
    whenever the product lies in the range of [size_t]. *)
Theorem GetOutputSize_bytes {DT elem} (l : Layer DT elem) (N : Z) :
  GetOutputSize l N = (N * GetC l * GetH l * GetW l * sizeof DT) mod 2 ^ 64
  /\ (0 <= N * GetC l * GetH l * GetW l * sizeof DT < 2 ^ 64 ->
      GetOutputSize l N = N * GetC l * GetH l * GetW l * sizeof DT).
Proof.
  pose proof (GetOutputSize_mod l N) as E.
  split.
  - exact E.
  - intros Hfit. rewrite E. apply Z.mod_small. exact Hfit.
Qed.

(** A batch of four positions through the tower: 4 * 256 * 8 * 8 floats. *)
Lemma GetOutputSize_bytes_witness :
  GetOutputSize tower_conv1 4 = 4 * 256 * 8 * 8 * 4.
Proof.
  apply (proj2 (GetOutputSize_bytes tower_conv1 4)).
  vm_compute. split; congruence.
Defined.

(** C1, the claim as stated, fails where the product leaves [size_t]. *)
Lemma GetOutputSize_wraps :
  is_intb 65536 = true
  /\ GetOutputSize wide_layer 65536 = 0
  /\ 65536 * GetC wide_layer * GetH wide_layer * GetW wide_layer * sizeof float
     = 2 ^ 66
  /\ GetOutputSize wide_layer 65536
     <> 65536 * GetC wide_layer * GetH wide_layer * GetW wide_layer
        * sizeof float.
Proof.
  repeat split; vm_compute; congruence.
Qed.

(** C10 (amended).  [GetOutputSize] depends only on the batch size and the
    shape: two layers with the same [(C, H, W)] report the same size whatever
    their class and layout; the size of an empty batch is 0; and the size is
    additive in the batch size modulo [2^64], exactly additive whenever the
    two sizes sum to less than [2^64]. *)
Theorem GetOutputSize_batch {DT elem} (l l' : Layer DT elem) (N1 N2 : Z)
  (Hshape : (GetC l', GetH l', GetW l') = (GetC l, GetH l, GetW l)) :
  GetOutputSize l' N1 = GetOutputSize l N1
  /\ GetOutputSize l 0 = 0
  /\ GetOutputSize l (N1 + N2)
     = (GetOutputSize l N1 + GetOutputSize l N2) mod 2 ^ 64
  /\ (GetOutputSize l N1 + GetOutputSize l N2 < 2 ^ 64 ->
      GetOutputSize l (N1 + N2) = GetOutputSize l N1 + GetOutputSize l N2).
Proof.
  split; [|split; [|split]].
  - now apply GetOutputSize_shape.
  - rewrite GetOutputSize_mod. now rewrite !Z.mul_0_l.
  - apply GetOutputSize_add_mod.
  - intros Hfit. rewrite GetOutputSize_add_mod.
    pose proof (GetOutputSize_range l N1).
    pose proof (GetOutputSize_range l N2).
    apply Z.mod_small. unfold SIZE_MOD in *. lia.
Qed.

(** A channel-major 1x1 convolution and a channel-minor fused convolution
    of the same shape, on batches of three and five. *)
Lemma GetOutputSize_batch_witness :
  GetOutputSize tower_fused_nhwc 3 = GetOutputSize tower_conv1 3
  /\ GetOutputSize tower_conv1 0 = 0
  /\ GetOutputSize tower_conv1 (3 + 5)
     = (GetOutputSize tower_conv1 3 + GetOutputSize tower_conv1 5) mod 2 ^ 64
  /\ (GetOutputSize tower_conv1 3 + GetOutputSize tower_conv1 5 < 2 ^ 64 ->
      GetOutputSize tower_conv1 (3 + 5)
      = GetOutputSize tower_conv1 3 + GetOutputSize tower_conv1 5).
Proof.
  apply (GetOutputSize_batch tower_conv1 tower_fused_nhwc 3 5).
  reflexivity.
Defined.

(** C10, the claim as stated, fails: additivity breaks where the sum of the
    two sizes leaves [size_t]. *)
Lemma GetOutputSize_not_additive :
  0 <= 16384
  /\ is_intb (16384 + 16384) = true
  /\ GetOutputSize huge_layer 16384 = 2 ^ 63
  /\ GetOutputSize huge_layer (16384 + 16384) = 0
  /\ GetOutputSize huge_layer (16384 + 16384)
     <> GetOutputSize huge_layer 16384 + GetOutputSize huge_layer 16384.
Proof.
  repeat split; vm_compute; congruence.
Qed.

(** * Further properties of [GetOutputSize] *)

(** ** Helpers *)

Lemma divide_mod_SIZE (a x : Z) :
  (a | SIZE_MOD) -> (a | x) -> (a | x mod SIZE_MOD).
Proof.
  intros Hm Hx.
  rewrite Z.mod_eq by discriminate.
  apply Z.divide_sub_r; [exact Hx|].
  now apply Z.divide_mul_l.
Qed.

Lemma neg_mod_SIZE (x : Z) :
  (- x) mod SIZE_MOD = (SIZE_MOD - x mod SIZE_MOD) mod SIZE_MOD.
Proof.
  rewrite Zminus_mod_idemp_r.
  replace (SIZE_MOD - x) with (- x + 1 * SIZE_MOD) by ring.
  now rewrite Z_mod_plus_full.
Qed.

Lemma product_Permutation (xs ys : list Z) :
  Permutation xs ys -> fold_right Z.mul 1 xs = fold_right Z.mul 1 ys.
Proof.
  induction 1 as [|x xs ys _ IH|x y xs|xs ys zs _ IH1 _ IH2]; simpl.
  - reflexivity.
  - now rewrite IH.
  - ring.
  - now rewrite IH1.
Qed.

(** X1.  When the batch size is a non-negative [int], the shape is
    non-negative with at most [INT_MAX] elements per sample and an element
    takes at most four bytes, nothing wraps: [GetOutputSize(N)] is the exact
    byte count [N * C * H * W * sizeof(DataType)]. *)
Theorem GetOutputSize_exact_for_int_shapes {DT elem} (l : Layer DT elem)
  (N : Z)
  (HN : 0 <= N <= INT_MAX)
  (HC : 0 <= GetC l) (HH : 0 <= GetH l) (HW : 0 <= GetW l)
  (Hper : GetC l * GetH l * GetW l <= INT_MAX)
  (Hsz : 0 <= sizeof DT <= 4) :
  GetOutputSize l N = N * GetC l * GetH l * GetW l * sizeof DT.
Proof.
  rewrite GetOutputSize_mod.
  apply Z.mod_small.
  replace (N * GetC l * GetH l * GetW l * sizeof DT)
    with (N * (GetC l * GetH l * GetW l) * sizeof DT) by ring.
  assert (HP : 0 <= GetC l * GetH l * GetW l)
    by (apply Z.mul_nonneg_nonneg; [apply Z.mul_nonneg_nonneg|]; assumption).
  set (P := GetC l * GetH l * GetW l) in *.
  unfold INT_MAX, SIZE_MOD in *.
  assert (0 <= N * P <= (2 ^ 31 - 1) * (2 ^ 31 - 1)) by nia.
  nia.
Qed.

Lemma GetOutputSize_exact_for_int_shapes_witness :
  GetOutputSize tower_fused_nhwc 1024 = 1024 * 256 * 8 * 8 * 4.
Proof.
  apply (GetOutputSize_exact_for_int_shapes tower_fused_nhwc 1024);
    vm_compute; try split; congruence.
Defined.

(** X2.  A negative batch size is not rejected: it is converted to [size_t],
    so [GetOutputSize(-N)] is the two's complement of [GetOutputSize(N)],
    that is [2^64 - GetOutputSize(N)] whenever [GetOutputSize(N)] is not 0. *)
Theorem GetOutputSize_negative_batch {DT elem} (l : Layer DT elem) (N : Z) :
  GetOutputSize l (- N) = (2 ^ 64 - GetOutputSize l N) mod 2 ^ 64
  /\ (GetOutputSize l N <> 0 ->
      GetOutputSize l (- N) = 2 ^ 64 - GetOutputSize l N).
Proof.
  assert (E : GetOutputSize l (- N)
              = (SIZE_MOD - GetOutputSize l N) mod SIZE_MOD).
  { rewrite !GetOutputSize_mod, <- neg_mod_SIZE. f_equal. ring. }
  split; [exact E|].
  intros Hnz. rewrite E.
  pose proof (GetOutputSize_range l N).
  apply Z.mod_small. unfold SIZE_MOD in *. lia.
Qed.

Lemma GetOutputSize_negative_batch_witness :
  GetOutputSize tower_conv1 (- 1) = 2 ^ 64 - GetOutputSize tower_conv1 1.
Proof.
  apply (proj2 (GetOutputSize_negative_batch tower_conv1 1)).
  vm_compute. congruence.
Defined.

(** X3.  [GetOutputSize] is 0 as soon as the batch size, a dimension or the
    element size is 0; and as long as the byte count fits in [size_t], those
    are the only ways to get 0. *)
Theorem GetOutputSize_zero {DT elem} (l : Layer DT elem) (N : Z) :
  (N = 0 \/ GetC l = 0 \/ GetH l = 0 \/ GetW l = 0 \/ sizeof DT = 0 ->
   GetOutputSize l N = 0)
  /\ (0 <= N * GetC l * GetH l * GetW l * sizeof DT < 2 ^ 64 ->
      GetOutputSize l N = 0 ->
      N = 0 \/ GetC l = 0 \/ GetH l = 0 \/ GetW l = 0 \/ sizeof DT = 0).
Proof.
  rewrite GetOutputSize_mod. split.
  - intros Hz.
    assert (E : N * GetC l * GetH l * GetW l * sizeof DT = 0).
    { destruct Hz as [->|[->|[->|[->| ->]]]]; ring. }
    now rewrite E.
  - intros Hfit E.
    rewrite Z.mod_small in E by exact Hfit.
    repeat (apply Z.mul_eq_0 in E; destruct E as [E|E]); auto.
Qed.

Lemma GetOutputSize_zero_witness :
  GetOutputSize empty_layer 7 = 0.
Proof.
  apply (proj1 (GetOutputSize_zero empty_layer 7)).
  right. right. left. reflexivity.
Defined.

(** X4.  Without wrap-around the size grows with the batch: for a
    non-negative shape and [0 <= N1 <= N2] such that the byte count of [N2]
    samples fits in [size_t], a buffer of [GetOutputSize(N2)] bytes is large
    enough for [N1] samples. *)
Theorem GetOutputSize_monotone {DT elem} (l : Layer DT elem) (N1 N2 : Z)
  (HN : 0 <= N1 <= N2)
  (HC : 0 <= GetC l) (HH : 0 <= GetH l) (HW : 0 <= GetW l)
  (Hsz : 0 <= sizeof DT)
  (Hfit : N2 * GetC l * GetH l * GetW l * sizeof DT < 2 ^ 64) :
  GetOutputSize l N1 <= GetOutputSize l N2.
Proof.
  assert (HP : 0 <= GetC l * GetH l * GetW l * sizeof DT)
    by (repeat apply Z.mul_nonneg_nonneg; assumption).
  assert (E : forall N, N * GetC l * GetH l * GetW l * sizeof DT
                        = N * (GetC l * GetH l * GetW l * sizeof DT))
    by (intros; ring).
  rewrite E in Hfit.
  rewrite !GetOutputSize_mod, !E.
  set (P := GetC l * GetH l * GetW l * sizeof DT) in *.
  assert (N1 * P <= N2 * P) by (apply Z.mul_le_mono_nonneg_r; lia).
  assert (0 <= N1 * P) by (apply Z.mul_nonneg_nonneg; lia).
  rewrite !Z.mod_small; unfold SIZE_MOD; lia.
Qed.

Lemma GetOutputSize_monotone_witness :
  GetOutputSize tower_conv1 3 <= GetOutputSize tower_conv1 5.
Proof.
  apply (GetOutputSize_monotone tower_conv1 3 5);
    vm_compute; try split; congruence.
Defined.

(** X5.  For an element size that divides [2^64], as those of [float] and
    [half] do, the result is always a whole number of elements, wrapped
    around or not. *)
Theorem GetOutputSize_whole_elements {DT elem} (l : Layer DT elem) (N : Z)
  (Hsz : (sizeof DT | 2 ^ 64)) :
  (sizeof DT | GetOutputSize l N).
Proof.
  rewrite GetOutputSize_mod.
  apply divide_mod_SIZE; [exact Hsz|].
  apply Z.divide_factor_r.
Qed.

Lemma GetOutputSize_whole_elements_witness :
  (sizeof float | GetOutputSize wide_layer 3).
Proof.
  apply (GetOutputSize_whole_elements wide_layer 3).
  exists (2 ^ 62). reflexivity.
Defined.

(** X6.  A [float] layer takes twice the bytes of the [half] layer of the
    same shape, modulo [2^64], and exactly twice whenever the doubled size
    is below [2^64]. *)
Theorem GetOutputSize_float_twice_half {elem elem'}
  (lf : Layer float elem) (lh : Layer half elem') (N : Z)
  (Hshape : (GetC lf, GetH lf, GetW lf) = (GetC lh, GetH lh, GetW lh)) :
  GetOutputSize lf N = (2 * GetOutputSize lh N) mod 2 ^ 64
  /\ (2 * GetOutputSize lh N < 2 ^ 64 ->
      GetOutputSize lf N = 2 * GetOutputSize lh N).
Proof.
  injection Hshape as EC EH EW.
  assert (E : GetOutputSize lf N = (2 * GetOutputSize lh N) mod SIZE_MOD).
  { rewrite !GetOutputSize_mod, EC, EH, EW.
    rewrite Z.mul_mod_idemp_r by discriminate.
    f_equal. simpl sizeof. ring. }
  split; [exact E|].
  intros Hfit. rewrite E.
  pose proof (GetOutputSize_range lh N).
  apply Z.mod_small. unfold SIZE_MOD in *. lia.
Qed.

Lemma GetOutputSize_float_twice_half_witness :
  GetOutputSize tower_conv1 8 = (2 * GetOutputSize tower_half 8) mod 2 ^ 64
  /\ (2 * GetOutputSize tower_half 8 < 2 ^ 64 ->
      GetOutputSize tower_conv1 8 = 2 * GetOutputSize tower_half 8).
Proof.
  apply (GetOutputSize_float_twice_half tower_conv1 tower_half 8).
  reflexivity.
Defined.

(** X7.  The size does not depend on the order of the dimensions: two
    layers whose [(C, H, W)] are permutations of each other report the same
    size, so a transposed shape needs a buffer of the same size. *)
Theorem GetOutputSize_permuted_shape {DT elem} (l l' : Layer DT elem)
  (N : Z)
  (Hperm : Permutation [GetC l'; GetH l'; GetW l'] [GetC l; GetH l; GetW l]) :
  GetOutputSize l' N = GetOutputSize l N.
Proof.
  apply product_Permutation in Hperm. simpl in Hperm.
  rewrite !GetOutputSize_mod. f_equal.
  replace (N * GetC l' * GetH l' * GetW l' * sizeof DT)
    with (N * (GetC l' * (GetH l' * (GetW l' * 1))) * sizeof DT) by ring.
  rewrite Hperm. ring.
Qed.

Lemma GetOutputSize_permuted_shape_witness :
  GetOutputSize policy_hwc 2 = GetOutputSize policy_chw 2.
Proof.
  apply (GetOutputSize_permuted_shape policy_chw policy_hwc 2).
  change (Permutation [8; 8; 80] [80; 8; 8]).
  apply perm_trans with [8; 80; 8].
  - apply perm_skip, perm_swap.
  - apply perm_swap.
Defined.

(** X8.  The size of a batch is the batch size times the size of one
    sample, modulo [2^64], and exactly so whenever that product lies in the
    range of [size_t]: sample [n] of an output buffer starts
    [n * GetOutputSize(1)] bytes in. *)
Theorem GetOutputSize_per_sample {DT elem} (l : Layer DT elem) (N : Z) :
  GetOutputSize l N = (N * GetOutputSize l 1) mod 2 ^ 64
  /\ (0 <= N * GetOutputSize l 1 < 2 ^ 64 ->
      GetOutputSize l N = N * GetOutputSize l 1).
Proof.
  assert (E : GetOutputSize l N = (N * GetOutputSize l 1) mod SIZE_MOD).
  { rewrite !GetOutputSize_mod.
    rewrite Z.mul_mod_idemp_r by discriminate.
    f_equal. ring. }
  split; [exact E|].
  intros Hfit. rewrite E. now apply Z.mod_small.
Qed.

Lemma GetOutputSize_per_sample_witness :
  GetOutputSize tower_conv1 6 = 6 * GetOutputSize tower_conv1 1.
Proof.
  apply (proj2 (GetOutputSize_per_sample tower_conv1 6)).
  vm_compute. split; congruence.
Defined.
